(** * Public discovery API of Kolibri: channel listing, lookup, file checksums

    Shallow embedding of [kolibri/core/public/api.py].  The three views read a
    relational store through Django's query layer; here the store is a record
    of finite maps keyed by primary key, a queryset is the list of rows it
    evaluates to, and a call that can raise returns a [result]. *)

From Stdlib Require Import Ascii NArith ZArith.
From stdpp Require Import base option list gmap strings fin_maps.

Local Open Scope N_scope.

(** ** Text: the [str] methods and the [icontains] lookup used by the views *)

Module Str.

(** [str.isspace] on one character, for code points below 256. *)
Definition isspace (c : ascii) : bool :=
  let n := N_of_ascii c in
  ((9 <=? n) && (n <=? 13)) || ((28 <=? n) && (n <=? 32))
  || (n =? 133) || (n =? 160).

Fixpoint lstrip (s : string) : string :=
  match s with
  | EmptyString => EmptyString
  | String c s' => if isspace c then lstrip s' else s
  end.

Fixpoint rstrip (s : string) : string :=
  match s with
  | EmptyString => EmptyString
  | String c s' =>
      match rstrip s' with
      | EmptyString => if isspace c then EmptyString else String c EmptyString
      | t => String c t
      end
  end.

(** [s.strip()]: surrounding whitespace removed, inner whitespace kept. *)
Definition strip (s : string) : string := rstrip (lstrip s).

(** [s.replace(old, new)] for a pattern [old] of one character. *)
Fixpoint replace (old : ascii) (new : string) (s : string) : string :=
  match s with
  | EmptyString => EmptyString
  | String c s' =>
      if Ascii.eqb c old then new +:+ replace old new s'
      else String c (replace old new s')
  end.

(** Case folding of the ASCII letters, as the store's [LIKE] does it. *)
Definition lower_char (c : ascii) : ascii :=
  let n := N_of_ascii c in
  if (65 <=? n) && (n <=? 90) then ascii_of_N (n + 32) else c.

Fixpoint lower (s : string) : string :=
  match s with
  | EmptyString => EmptyString
  | String c s' => String (lower_char c) (lower s')
  end.

Fixpoint startswith (p s : string) : bool :=
  match p, s with
  | EmptyString, _ => true
  | String _ _, EmptyString => false
  | String a p', String b s' => Ascii.eqb a b && startswith p' s'
  end.

(** [sub in s] *)
Fixpoint contains (sub s : string) : bool :=
  startswith sub s ||
  match s with
  | EmptyString => false
  | String _ s' => contains sub s'
  end.

(** The [field__icontains=pat] lookup on a text column. *)
Definition icontains (col pat : string) : bool :=
  contains (lower pat) (lower col).

(** The same lookup on a nullable column: [NULL LIKE _] is not true. *)
Definition icontains_null (col : option string) (pat : string) : bool :=
  match col with
  | Some s => icontains s pat
  | None => false
  end.

(** [sub] occurs in [s] as a contiguous substring. *)
Definition occurs (sub s : string) : Prop :=
  ∃ pre post, s = pre +:+ sub +:+ post.

(** [pat] occurs in [s] when the case of ASCII letters is ignored. *)
Definition occurs_ci (pat s : string) : Prop :=
  occurs (lower pat) (lower s).

(** [h'] is [h] with hyphens inserted at any positions. *)
Inductive hyphenated : string → string → Prop :=
| hyph_nil : hyphenated EmptyString EmptyString
| hyph_keep c h h' : hyphenated h h' → hyphenated (String c h) (String c h')
| hyph_ins h h' : hyphenated h h' → hyphenated h (String "-" h').

Definition ishex (c : ascii) : bool :=
  let n := N_of_ascii c in
  ((48 <=? n) && (n <=? 57)) || ((65 <=? n) && (n <=? 70))
  || ((97 <=? n) && (n <=? 102)).

Fixpoint all_chars (p : ascii → bool) (s : string) : bool :=
  match s with
  | EmptyString => true
  | String c s' => p c && all_chars p s'
  end.

Definition nonspace (c : ascii) : bool := negb (isspace c).
Definition ishyphen (c : ascii) : bool := Ascii.eqb c "-".
Definition nonhyphen (c : ascii) : bool := negb (ishyphen c).

End Str.

Local Close Scope N_scope.

(** ** The store

    The model declarations live outside this file.  A table with a primary key
    is a finite map from the key to the remaining columns, so a key identifies
    at most one row.  A foreign key is the key of the row it points to; a
    nullable column is an [option]. *)

Module ContentNode.
(** Modelled from the spec: the declaration of the ContentNode model is not
    part of the source.  A content node belongs to one tree, named by its
    [tree_id], has an optional language tag ([lang] holds the key of the
    language, which is what [lang__id] reads) and an [available] flag. *)
Record t := mk {
  tree_id : Z;
  lang : option string;
  available : bool
}.
End ContentNode.

Module LocalFile.
(** Modelled from the spec: the declaration of the LocalFile model is not
    part of the source.  Its key is the checksum; it has an [available]
    flag. *)
Record t := mk { available : bool }.
End LocalFile.

Module File.
(** Modelled from the spec: the declaration of the File model is not part of
    the source.  The data model of the specification associates a File with
    one or more content nodes (many-to-many), gives it an optional language
    tag and an availability flag of its own, and makes it reference exactly
    one LocalFile.  A foreign key to a single node is the one-element case
    of [contentnode]. *)
Record t := mk {
  contentnode : list string;
  lang : option string;
  available : bool;
  local_file : string
}.
End File.

Module ChannelMetadata.
(** Modelled from the spec: the declaration of the ChannelMetadata model is
    not part of the source.  The key of a channel is an opaque string compared
    by equality; a channel has a name, a description and the key of its root
    content node. *)
Record t := mk {
  name : string;
  description : string;
  root : string
}.

#[global] Instance eq_dec : EqDecision t.
Proof. solve_decision. Defined.
End ChannelMetadata.

Record Database := {
  ChannelMetadata_objects : gmap string ChannelMetadata.t;
  ContentNode_objects : gmap string ContentNode.t;
  File_objects : gmap string File.t;
  LocalFile_objects : gmap string LocalFile.t
}.

(** A channel as a queryset yields it: primary key and columns. *)
Definition Channel : Type := string * ChannelMetadata.t.

(** ** Exceptions *)

Inductive exn :=
| LookupError
| ChannelMetadata_DoesNotExist
| ChannelMetadata_MultipleObjectsReturned
| ContentNode_DoesNotExist.

Inductive result (A : Type) :=
| Return (a : A)
| Raise (e : exn).
Arguments Return {A} a.
Arguments Raise {A} e.

#[global] Instance result_ret : MRet result := @Return.
#[global] Instance result_bind : MBind result := λ A B f m,
  match m with
  | Return a => f a
  | Raise e => Raise e
  end.

(** ** Requests and responses *)

(** [request.query_params]: every key carries the list of values given for it
    in the query string. *)
Abbreviation QueryDict := (gmap string (list string)).

(** [params.get(key, default)]: the last value of [key]; [default] when the
    key is absent or its list is empty. *)
Definition QueryDict_get (params : QueryDict) (key default : string) : string :=
  match params !! key with
  | Some vs => from_option id default (last vs)
  | None => default
  end.

(** The values given to [json.dumps]. *)
#[local] Set Warnings "-register-all".
Inductive json :=
| JStr (s : string)
| JList (l : list json)
| JDict (l : list (string * json)).
#[local] Set Warnings "register-all".

(** A response: status code and the value serialised into its body (the
    content type is [application/json] throughout). *)
Record Response := mkResponse {
  status_code : Z;
  content : json
}.

Definition HttpResponse (body : json) : Response := mkResponse 200 body.
Definition HttpResponseNotFound (body : json) : Response := mkResponse 404 body.

(** Truth value of an optional string argument: [None] and [""] are false. *)
Definition truthy (identifier : option string) : bool :=
  match identifier with
  | Some (String _ _) => true
  | _ => false
  end.

(** ** Querysets over channels *)

(** [ChannelMetadata.objects.all()] *)
Definition ChannelMetadata_all (db : Database) : list Channel :=
  map_to_list (ChannelMetadata_objects db).

(** A condition [root__...] on the root node of a channel: the channel is
    joined to the node its [root] key points to, and no row results when there
    is no such node. *)
Definition root__ (db : Database) (p : ContentNode.t → bool) (c : Channel) : bool :=
  match ContentNode_objects db !! ChannelMetadata.root c.2 with
  | Some r => p r
  | None => false
  end.

(** The files related to a node through [files]. *)
Definition ContentNode_files (db : Database) (nid : string) : list File.t :=
  (filter (λ f : string * File.t, nid ∈ File.contentnode f.2)
          (map_to_list (File_objects db))).*2.

(** Content nodes outer-joined to their files: a node without files gives one
    row with no file, a node with files gives one row per file. *)
Definition ContentNode_join_files (db : Database)
    : list (ContentNode.t * option File.t) :=
  nr ← map_to_list (ContentNode_objects db);
  match ContentNode_files db nr.1 with
  | [] => [(nr.2, None)]
  | fs => (λ f, (nr.2, Some f)) <$> fs
  end.

(** [ContentNode.objects.prefetch_related("files")
      .filter(Q(lang__id__icontains=language_id)
              | Q(files__lang__id__icontains=language_id))
      .values_list("tree_id", flat=True)] *)
Definition matching_tree_ids (db : Database) (language_id : string) : list Z :=
  (λ row : ContentNode.t * option File.t, ContentNode.tree_id row.1) <$>
  filter (λ row : ContentNode.t * option File.t,
            Str.icontains_null (ContentNode.lang row.1) language_id
            || Str.icontains_null (row.2 ≫= File.lang) language_id)
         (ContentNode_join_files db).

(** The starting queryset: [filter(pk=identifier)] for a true [identifier],
    [all()] otherwise. *)
Definition channels_start (db : Database) (identifier : option string)
    : list Channel :=
  if truthy identifier
  then filter (λ c : Channel, Some c.1 = identifier) (ChannelMetadata_all db)
  else ChannelMetadata_all db.

(** [filter(Q(name__icontains=keyword) | Q(description__icontains=keyword))] *)
Definition keyword_filter (keyword : string) (channels : list Channel)
    : list Channel :=
  filter (λ c : Channel,
            Str.icontains (ChannelMetadata.name c.2) keyword
            || Str.icontains (ChannelMetadata.description c.2) keyword)
         channels.

(** [filter(Q(root__lang__id__icontains=language_id)
            | Q(root__tree_id__in=matching_tree_ids))] *)
Definition language_filter (db : Database) (language_id : string)
    (channels : list Channel) : list Channel :=
  let matching_tree_ids := matching_tree_ids db language_id in
  filter (λ c : Channel,
            root__ db (λ r, Str.icontains_null (ContentNode.lang r) language_id
                            || bool_decide (ContentNode.tree_id r ∈ matching_tree_ids))
                   c)
         channels.

Definition _get_channel_list_v1 (db : Database) (params : QueryDict)
    (identifier : option string) : list Channel :=
  let keyword := Str.strip (QueryDict_get params "keyword" "") in
  let language_id := Str.strip (QueryDict_get params "language" "") in
  let channels := channels_start db identifier in
  let channels :=
    if bool_decide (keyword ≠ "") then keyword_filter keyword channels
    else channels in
  let channels :=
    if bool_decide (language_id ≠ "") then language_filter db language_id channels
    else channels in
  remove_dups (filter (λ c : Channel, root__ db ContentNode.available c) channels).

Definition _get_channel_list (db : Database) (version : string)
    (params : QueryDict) (identifier : option string) : result (list Channel) :=
  if bool_decide (version = "v1")
  then Return (_get_channel_list_v1 db params identifier)
  else Raise LookupError.

(** ** File checksums of a channel *)

(** [ChannelMetadata.objects.get(id=channel_id)] *)
Definition ChannelMetadata_get (db : Database) (channel_id : string)
    : result Channel :=
  match filter (λ c : Channel, c.1 = channel_id) (ChannelMetadata_all db) with
  | [] => Raise ChannelMetadata_DoesNotExist
  | [c] => Return c
  | _ => Raise ChannelMetadata_MultipleObjectsReturned
  end.

(** [channel.root]: the related node is fetched by key. *)
Definition ChannelMetadata_root (db : Database) (channel : Channel)
    : result ContentNode.t :=
  match ContentNode_objects db !! ChannelMetadata.root channel.2 with
  | Some r => Return r
  | None => Raise ContentNode_DoesNotExist
  end.

(** Local files inner-joined to the files that reference them and to the
    content nodes of those files: one row per (local file, file, node). *)
Definition LocalFile_join_files_contentnode (db : Database)
    : list ((string * LocalFile.t) * File.t * ContentNode.t) :=
  lf ← map_to_list (LocalFile_objects db);
  f ← (filter (λ f : string * File.t, File.local_file f.2 = lf.1)
              (map_to_list (File_objects db))).*2;
  nid ← File.contentnode f;
  match ContentNode_objects db !! nid with
  | Some n => [(lf, f, n)]
  | None => []
  end.

(** [LocalFile.objects.filter(available=True,
                              files__contentnode__tree_id=tree_id)
      .values_list("id", flat=True).distinct()] *)
Definition checksums_query (db : Database) (tree_id : Z) : list string :=
  remove_dups
    ((λ row : (string * LocalFile.t) * File.t * ContentNode.t, row.1.1.1) <$>
     filter (λ row : (string * LocalFile.t) * File.t * ContentNode.t,
               LocalFile.available row.1.1.2 = true
               ∧ ContentNode.tree_id row.2 = tree_id)
            (LocalFile_join_files_contentnode db)).

(** ** The views *)

(** [identifier.strip().replace("-", "")], the key the lookup view passes on. *)
Definition normalize_identifier (identifier : string) : string :=
  Str.replace "-" "" (Str.strip identifier).

Section Views.

(** [error_constants.NOT_FOUND] and the channel serialiser are imported from
    modules outside this file; the views only pass them on. *)
Variable NOT_FOUND : json.
Variable PublicChannelSerializer : Channel → json.

Definition not_found_body : json :=
  JDict [("id", NOT_FOUND); ("metadata", JDict [("view", JStr "")])].

(** [PublicChannelSerializer(channel_list, many=True).data] *)
Definition serialize_many (channel_list : list Channel) : json :=
  JList (PublicChannelSerializer <$> channel_list).

Definition get_public_channel_list (db : Database) (version : string)
    (query_params : QueryDict) : result Response :=
  match _get_channel_list db version query_params None with
  | Raise LookupError => Return (HttpResponseNotFound not_found_body)
  | Raise e => Raise e
  | Return channel_list => Return (HttpResponse (serialize_many channel_list))
  end.

Definition get_public_channel_lookup (db : Database) (version : string)
    (query_params : QueryDict) (identifier : string) : result Response :=
  match _get_channel_list db version query_params
          (Some (normalize_identifier identifier)) with
  | Raise LookupError => Return (HttpResponseNotFound not_found_body)
  | Raise e => Raise e
  | Return channel_list =>
      match channel_list with
      | [] => Return (HttpResponseNotFound not_found_body)
      | _ => Return (HttpResponse (serialize_many channel_list))
      end
  end.

Definition get_public_file_checksums (db : Database) (version : string)
    (channel_id : string) : result Response :=
  if bool_decide (version = "v1") then
    match
      channel ← ChannelMetadata_get db channel_id;
      root ← ChannelMetadata_root db channel;
      let tree_id := ContentNode.tree_id root in
      Return (checksums_query db tree_id)
    with
    | Return checksums => Return (HttpResponse (JList (JStr <$> checksums)))
    | Raise ChannelMetadata_DoesNotExist => Return (HttpResponse (JList []))
    | Raise e => Raise e
    end
  else Return (HttpResponseNotFound not_found_body).

End Views.

(** ** Vocabulary of the statements *)

(** [C] is a row of the channel table. *)
Definition is_channel (db : Database) (C : Channel) : Prop :=
  ChannelMetadata_objects db !! C.1 = Some C.2.

(** [r] is the root content node of [C]. *)
Definition root_node (db : Database) (C : Channel) (r : ContentNode.t) : Prop :=
  ContentNode_objects db !! ChannelMetadata.root C.2 = Some r.

(** The root content node of [C] has [available = true]. *)
Definition root_available (db : Database) (C : Channel) : Prop :=
  ∃ r, root_node db C r ∧ ContentNode.available r = true.

(** A language tag is present and contains [L], case ignored. *)
Definition lang_matches (tag : option string) (L : string) : Prop :=
  ∃ s, tag = Some s ∧ Str.occurs_ci L s.

(** [f] is a file associated with the node of key [nid]. *)
Definition node_has_file (db : Database) (nid : string) (f : File.t) : Prop :=
  ∃ fid, File_objects db !! fid = Some f ∧ nid ∈ File.contentnode f.

(** The node of key [nid] matches [L] by its own tag or by a file's tag. *)
Definition node_matches (db : Database) (L : string) (nid : string)
    (n : ContentNode.t) : Prop :=
  lang_matches (ContentNode.lang n) L
  ∨ ∃ f, node_has_file db nid f ∧ lang_matches (File.lang f) L.

(** [t] is the tree-id of some content node that matches [L]. *)
Definition language_tree (db : Database) (L : string) (t : Z) : Prop :=
  ∃ nid n, ContentNode_objects db !! nid = Some n
           ∧ ContentNode.tree_id n = t ∧ node_matches db L nid n.

(** The keyword criterion: [k] occurs in the name or in the description. *)
Definition keyword_criterion (k : string) (C : Channel) : Prop :=
  Str.occurs_ci k (ChannelMetadata.name C.2)
  ∨ Str.occurs_ci k (ChannelMetadata.description C.2).

(** The language criterion: the root's own tag matches, or the root's tree-id
    is the tree-id of a matching node. *)
Definition language_criterion (db : Database) (L : string) (C : Channel) : Prop :=
  ∃ r, root_node db C r
       ∧ (lang_matches (ContentNode.lang r) L
          ∨ language_tree db L (ContentNode.tree_id r)).

(** The local file of key [x] is referenced by a file one of whose content
    nodes lies in tree [t]. *)
Definition reachable_in_tree (db : Database) (t : Z) (x : string) : Prop :=
  ∃ fid f nid n, File_objects db !! fid = Some f
                 ∧ File.local_file f = x
                 ∧ nid ∈ File.contentnode f
                 ∧ ContentNode_objects db !! nid = Some n
                 ∧ ContentNode.tree_id n = t.

(** ** A sample store

    Three channels.  [chan_X] is available and in English.  [chan_Y] has an
    unavailable root.  [chan_T] is in French; one node of its tree carries two
    files that reference the same local file, the first of them in Spanish. *)

Module Sample.

Definition id_X : string := "0123456789abcdef0123456789abcdef".
Definition id_Y : string := "ffffffffffffffffffffffffffffffff".
Definition id_T : string := "000000000000000000000000000000a2".

Definition chan_X : Channel :=
  (id_X, ChannelMetadata.mk "Math Basics" "Arithmetic for beginners" "nx").
Definition chan_Y : Channel :=
  (id_Y, ChannelMetadata.mk "Physique" "Cours de physique" "ny").
Definition chan_T : Channel :=
  (id_T, ChannelMetadata.mk "Chimie" "Cours de chimie" "nt").

Definition db : Database := {|
  ChannelMetadata_objects := list_to_map [chan_X; chan_Y; chan_T];
  ContentNode_objects :=
    list_to_map
      [("nx", ContentNode.mk 1 (Some "en") true);
       ("ny", ContentNode.mk 2 (Some "fr") false);
       ("nt", ContentNode.mk 3 (Some "fr") true);
       ("nt1", ContentNode.mk 3 (Some "fr") true)];
  File_objects :=
    list_to_map
      [("f1", File.mk ["nt1"] (Some "es") true "lf1");
       ("f2", File.mk ["nt1"] None true "lf1");
       ("f3", File.mk ["nt"] None false "lf2");
       ("f4", File.mk ["nx"] (Some "en") true "lf3")];
  LocalFile_objects :=
    list_to_map
      [("lf1", LocalFile.mk true);
       ("lf2", LocalFile.mk false);
       ("lf3", LocalFile.mk true)]
|}.

(** Stand-ins for the two imported names the views pass on. *)
Definition NOT_FOUND : json := JStr "NOT_FOUND".
Definition serializer : Channel → json := λ C, JStr C.1.

(** The sample store with the root node of [chan_X] deleted. *)
Definition db_orphan : Database := {|
  ChannelMetadata_objects := ChannelMetadata_objects db;
  ContentNode_objects := delete "nx" (ContentNode_objects db);
  File_objects := File_objects db;
  LocalFile_objects := LocalFile_objects db
|}.

Definition no_params : QueryDict := ∅.
Definition keyword_math : QueryDict := {[ "keyword" := [" math "] ]}.
Definition keyword_science : QueryDict := {[ "keyword" := ["science"] ]}.
Definition language_es : QueryDict := {[ "language" := ["es"] ]}.

End Sample.

(** * Properties *)

(** ** Text *)

Section StrFacts.
Import Str.

Lemma startswith_spec p s :
  startswith p s = true ↔ ∃ post, s = p +:+ post.
Proof.
  revert s. induction p as [|a p IH]; intros s; simpl.
  - split; [intros _; by exists s | done].
  - destruct s as [|b s]; simpl.
    + split; [done | intros [post Hpost]; discriminate].
    + rewrite andb_true_iff, IH. split.
      * intros [Hab [post ->]]. apply Ascii.eqb_eq in Hab as ->. by exists post.
      * intros [post Hpost]. injection Hpost as -> ->.
        split; [apply Ascii.eqb_refl | by exists post].
Qed.

Lemma contains_spec sub s : contains sub s = true ↔ occurs sub s.
Proof.
  unfold occurs. induction s as [|c s IH]; simpl.
  - rewrite orb_false_r, startswith_spec. split.
    + intros [post ->]. by exists EmptyString, post.
    + intros [[|a pre] [post Hs]]; [by exists post | discriminate].
  - rewrite orb_true_iff, startswith_spec, IH. split.
    + intros [[post ->] | (pre & post & ->)].
      * by exists EmptyString, post.
      * by exists (String c pre), post.
    + intros [[|a pre] [post Hs]].
      * left. by exists post.
      * right. injection Hs as -> ->. by exists pre, post.
Qed.

Lemma icontains_spec col pat : icontains col pat = true ↔ occurs_ci pat col.
Proof. apply contains_spec. Qed.

Lemma lstrip_nonspace s : all_chars nonspace s = true → lstrip s = s.
Proof.
  destruct s as [|c s]; simpl; [done|].
  unfold nonspace. intros [Hc _]%andb_true_iff.
  by destruct (isspace c).
Qed.

Lemma rstrip_nonspace s : all_chars nonspace s = true → rstrip s = s.
Proof.
  induction s as [|c s IH]; simpl; [done|].
  unfold nonspace at 1. intros [Hc Hs]%andb_true_iff.
  rewrite (IH Hs). destruct s; [|done].
  by destruct (isspace c).
Qed.

Lemma strip_nonspace s : all_chars nonspace s = true → strip s = s.
Proof.
  intros Hs. unfold strip. rewrite (lstrip_nonspace _ Hs).
  by apply rstrip_nonspace.
Qed.

Lemma all_chars_impl (p q : ascii → bool) s :
  (∀ c, p c = true → q c = true) →
  all_chars p s = true → all_chars q s = true.
Proof.
  intros Hpq. induction s as [|c s IH]; simpl; [done|].
  intros [Hc Hs]%andb_true_iff. apply andb_true_iff. auto.
Qed.

Lemma ishex_nonspace c : ishex c = true → nonspace c = true.
Proof. destruct c as [[] [] [] [] [] [] [] []]; by vm_compute. Qed.

Lemma ishex_nonhyphen c : ishex c = true → nonhyphen c = true.
Proof. destruct c as [[] [] [] [] [] [] [] []]; by vm_compute. Qed.

Lemma hyphenated_refl s : hyphenated s s.
Proof. induction s; by constructor. Qed.

Lemma hyphenated_all_chars (p : ascii → bool) h h' :
  p "-"%char = true → hyphenated h h' →
  all_chars p h = true → all_chars p h' = true.
Proof.
  intros Hp. induction 1 as [|c h h' _ IH|h h' _ IH]; simpl; [done|..].
  - intros [Hc Hh]%andb_true_iff. apply andb_true_iff. auto.
  - intros Hh. rewrite Hp. simpl. auto.
Qed.

Lemma replace_hyphenated h h' :
  hyphenated h h' → all_chars nonhyphen h = true → replace "-" "" h' = h.
Proof.
  induction 1 as [|c h h' _ IH|h h' _ IH]; simpl; [done|..].
  - unfold nonhyphen at 1, ishyphen. intros [Hc Hh]%andb_true_iff.
    destruct (Ascii.eqb c "-"); [done|]. by rewrite (IH Hh).
  - exact IH.
Qed.

Lemma replace_hyphen_empty s :
  replace "-" "" s = "" ↔ all_chars ishyphen s = true.
Proof.
  induction s as [|c s IH]; simpl; [done|].
  unfold ishyphen at 1. destruct (Ascii.eqb c "-"); simpl; [exact IH|].
  split; discriminate.
Qed.

End StrFacts.

(** ** The store and the joins *)

Section StoreFacts.
Context (db : Database).

Lemma elem_of_ChannelMetadata_all (C : Channel) :
  C ∈ ChannelMetadata_all db ↔ is_channel db C.
Proof. destruct C as [k v]. apply elem_of_map_to_list. Qed.

Lemma NoDup_ChannelMetadata_all : NoDup (ChannelMetadata_all db).*1.
Proof. apply NoDup_fst_map_to_list. Qed.

Lemma root___spec (p : ContentNode.t → bool) (C : Channel) :
  root__ db p C = true ↔ ∃ r, root_node db C r ∧ p r = true.
Proof.
  unfold root__, root_node.
  destruct (ContentNode_objects db !! _) as [r|]; split.
  - intros Hp. by exists r.
  - by intros (r' & [= <-] & Hp).
  - done.
  - by intros (r' & [=] & _).
Qed.

Lemma icontains_null_spec (tag : option string) (L : string) :
  Str.icontains_null tag L = true ↔ lang_matches tag L.
Proof.
  unfold lang_matches. destruct tag as [s|]; simpl.
  - rewrite icontains_spec. split; [by exists s | by intros (s' & [= <-] & ?)].
  - split; [done | by intros (s' & [=] & _)].
Qed.

Lemma elem_of_ContentNode_files (nid : string) (f : File.t) :
  f ∈ ContentNode_files db nid ↔ node_has_file db nid f.
Proof.
  unfold ContentNode_files, node_has_file.
  rewrite list_elem_of_fmap. split.
  - intros ([fid f'] & -> & [Hin Hf]%list_elem_of_filter).
    exists fid. split; [by apply elem_of_map_to_list | done].
  - intros (fid & Hf & Hin). exists (fid, f). split; [done|].
    apply list_elem_of_filter. split; [done | by apply elem_of_map_to_list].
Qed.

Lemma elem_of_ContentNode_join_files (n : ContentNode.t) (o : option File.t) :
  (n, o) ∈ ContentNode_join_files db ↔
  ∃ nid, ContentNode_objects db !! nid = Some n ∧
         match o with
         | Some f => node_has_file db nid f
         | None => ∀ f, ¬ node_has_file db nid f
         end.
Proof.
  unfold ContentNode_join_files. rewrite list_elem_of_bind. split.
  - intros ([nid n'] & Hrow & Hn%elem_of_map_to_list). cbn [fst snd] in Hrow.
    exists nid. destruct (ContentNode_files db nid) as [|f0 fs] eqn:Hfs;
      cbv beta iota in Hrow.
    + apply list_elem_of_singleton in Hrow as [= -> ->]. split; [done|].
      intros f Hf%elem_of_ContentNode_files. rewrite Hfs in Hf.
      by apply not_elem_of_nil in Hf.
    + apply list_elem_of_fmap in Hrow as (f & [= -> ->] & Hf).
      split; [done|]. apply elem_of_ContentNode_files. by rewrite Hfs.
  - intros (nid & Hn & Ho). exists (nid, n).
    split; [|by apply elem_of_map_to_list]. cbn [fst snd].
    destruct (ContentNode_files db nid) as [|f0 fs] eqn:Hfs; cbv beta iota.
    + destruct o as [f|]; [|by apply list_elem_of_singleton].
      apply elem_of_ContentNode_files in Ho. rewrite Hfs in Ho.
      by apply not_elem_of_nil in Ho.
    + destruct o as [f|].
      * apply list_elem_of_fmap. exists f. split; [done|].
        rewrite <- Hfs. by apply elem_of_ContentNode_files.
      * exfalso. apply (Ho f0). apply elem_of_ContentNode_files.
        rewrite Hfs. by left.
Qed.

Lemma elem_of_matching_tree_ids (L : string) (t : Z) :
  t ∈ matching_tree_ids db L ↔ language_tree db L t.
Proof.
  unfold matching_tree_ids, language_tree, node_matches.
  rewrite list_elem_of_fmap. split.
  - intros ([n o] & -> & [Hp Hin]%list_elem_of_filter).
    apply elem_of_ContentNode_join_files in Hin as (nid & Hn & Ho).
    exists nid, n. do 2 (split; [done|]).
    apply orb_True in Hp as [Hp|Hp]; apply Is_true_true in Hp.
    + left. by apply icontains_null_spec.
    + right. destruct o as [f|]; [|done].
      exists f. split; [done|]. by apply icontains_null_spec.
  - intros (nid & n & Hn & <- & [Hown|(f & Hf & Hlang)]).
    + apply icontains_null_spec in Hown.
      destruct (ContentNode_files db nid) as [|f0 fs] eqn:Hfs.
      * exists (n, None). split; [done|]. apply list_elem_of_filter. split.
        { apply orb_True. left. by apply Is_true_true. }
        apply elem_of_ContentNode_join_files. exists nid. split; [done|].
        intros f Hf%elem_of_ContentNode_files. rewrite Hfs in Hf.
        by apply not_elem_of_nil in Hf.
      * exists (n, Some f0). split; [done|]. apply list_elem_of_filter. split.
        { apply orb_True. left. by apply Is_true_true. }
        apply elem_of_ContentNode_join_files. exists nid. split; [done|].
        apply elem_of_ContentNode_files. rewrite Hfs. by left.
    + apply icontains_null_spec in Hlang.
      exists (n, Some f). split; [done|]. apply list_elem_of_filter. split.
      { apply orb_True. right. by apply Is_true_true. }
      apply elem_of_ContentNode_join_files. by exists nid.
Qed.

Lemma elem_of_keyword_filter (k : string) (channels : list Channel) (C : Channel) :
  C ∈ keyword_filter k channels ↔ C ∈ channels ∧ keyword_criterion k C.
Proof.
  unfold keyword_filter, keyword_criterion.
  rewrite list_elem_of_filter, orb_True, !Is_true_true, !icontains_spec.
  tauto.
Qed.

Lemma elem_of_language_filter (L : string) (channels : list Channel) (C : Channel) :
  C ∈ language_filter db L channels ↔ C ∈ channels ∧ language_criterion db L C.
Proof.
  unfold language_filter, language_criterion.
  rewrite list_elem_of_filter, Is_true_true, root___spec.
  split; [intros [(r & Hr & Hp) HC]; split; [done|]
         |intros [HC (r & Hr & Hp)]; split; [|done]]; exists r; (split; [done|]).
  - apply orb_true_iff in Hp as [Hp|Hp].
    + left. by apply icontains_null_spec.
    + right. apply bool_decide_eq_true in Hp. by apply elem_of_matching_tree_ids.
  - apply orb_true_iff. destruct Hp as [Hp|Hp].
    + left. by apply icontains_null_spec.
    + right. apply bool_decide_eq_true. by apply elem_of_matching_tree_ids.
Qed.

(** Membership in the result of [_get_channel_list_v1], filter by filter. *)
Lemma elem_of_get_channel_list_v1 (params : QueryDict)
    (identifier : option string) (C : Channel) :
  C ∈ _get_channel_list_v1 db params identifier ↔
    C ∈ channels_start db identifier
    ∧ (Str.strip (QueryDict_get params "keyword" "") = ""
       ∨ keyword_criterion (Str.strip (QueryDict_get params "keyword" "")) C)
    ∧ (Str.strip (QueryDict_get params "language" "") = ""
       ∨ language_criterion db (Str.strip (QueryDict_get params "language" "")) C)
    ∧ root_available db C.
Proof.
  unfold _get_channel_list_v1, root_available.
  rewrite elem_of_remove_dups, list_elem_of_filter, Is_true_true, root___spec.
  set (k := Str.strip (QueryDict_get params "keyword" "")).
  set (L := Str.strip (QueryDict_get params "language" "")).
  case_bool_decide as Hk; case_bool_decide as HL;
    rewrite ?elem_of_language_filter, ?elem_of_keyword_filter; tauto.
Qed.

End StoreFacts.

(** ** The channel listing *)

Section ChannelList.
Context (db : Database).

Lemma channels_start_None : channels_start db None = ChannelMetadata_all db.
Proof. reflexivity. Qed.

Lemma channels_start_is_channel (identifier : option string) (C : Channel) :
  C ∈ channels_start db identifier → is_channel db C.
Proof.
  unfold channels_start. destruct (truthy identifier).
  - intros [_ HC]%list_elem_of_filter. by apply elem_of_ChannelMetadata_all.
  - apply elem_of_ChannelMetadata_all.
Qed.

Lemma QueryDict_get_delete_ne (params : QueryDict) (k k' d : string) :
  k ≠ k' → QueryDict_get (delete k params) k' d = QueryDict_get params k' d.
Proof. intros Hk. unfold QueryDict_get. by rewrite lookup_delete_ne. Qed.

Lemma QueryDict_get_delete_eq (params : QueryDict) (k d : string) :
  QueryDict_get (delete k params) k d = d.
Proof. unfold QueryDict_get. by rewrite lookup_delete_eq. Qed.

End ChannelList.

(** C1.  When the [language] parameter, trimmed, is a non-empty tag [L], the
    language filter of [_get_channel_list_v1] retains exactly the channels
    that satisfy the language criterion: a channel is in the result iff it is
    in the result of the same request without the [language] parameter and
    either the language tag of its root node contains [L], or the tree-id of
    its root is the tree-id of a content node whose own tag contains [L] or
    that has an associated file whose tag contains [L] (substring test, case
    ignored).  In particular a node that matches only through the tag of one
    of its files brings in the channel rooted in its tree. *)
Theorem language_filter_retains (db : Database) (params : QueryDict)
    (identifier : option string) (L : string) (C : Channel) :
  Str.strip (QueryDict_get params "language" "") = L →
  L ≠ "" →
  (C ∈ _get_channel_list_v1 db params identifier ↔
     C ∈ _get_channel_list_v1 db (delete "language" params) identifier
     ∧ ∃ r, root_node db C r
            ∧ (lang_matches (ContentNode.lang r) L
               ∨ ∃ nid n, ContentNode_objects db !! nid = Some n
                          ∧ ContentNode.tree_id n = ContentNode.tree_id r
                          ∧ (lang_matches (ContentNode.lang n) L
                             ∨ ∃ f, node_has_file db nid f
                                    ∧ lang_matches (File.lang f) L)))
  ∧ (∀ r nid n f,
       C ∈ _get_channel_list_v1 db (delete "language" params) identifier →
       root_node db C r →
       ContentNode_objects db !! nid = Some n →
       ContentNode.tree_id n = ContentNode.tree_id r →
       node_has_file db nid f →
       lang_matches (File.lang f) L →
       C ∈ _get_channel_list_v1 db params identifier).
Proof.
  intros HL Hne.
  assert (C ∈ _get_channel_list_v1 db params identifier ↔
          C ∈ _get_channel_list_v1 db (delete "language" params) identifier
          ∧ language_criterion db L C) as Hiff.
  { rewrite !elem_of_get_channel_list_v1.
    rewrite QueryDict_get_delete_eq, QueryDict_get_delete_ne by done.
    rewrite HL. change (Str.strip "") with "". intuition congruence. }
  split; [exact Hiff|].
  intros r nid n f Hin Hr Hn Ht Hf Hlang. apply Hiff. split; [done|].
  exists r. split; [done|]. right. exists nid, n.
  do 2 (split; [done|]). right. by exists f.
Qed.

Lemma language_filter_retains_witness :
  Sample.chan_T ∈ _get_channel_list_v1 Sample.db Sample.language_es None
  ∧ ¬ lang_matches (Some "fr") "es".
Proof.
  split.
  - refine (proj2 (language_filter_retains Sample.db Sample.language_es None
                     "es" Sample.chan_T _ _)
              (ContentNode.mk 3 (Some "fr") true) "nt1"
              (ContentNode.mk 3 (Some "fr") true)
              (File.mk ["nt1"] (Some "es") true "lf1") _ _ _ _ _ _).
    + reflexivity.
    + discriminate.
    + apply (bool_decide_unpack _). vm_compute. exact I.
    + reflexivity.
    + reflexivity.
    + reflexivity.
    + exists "f1". split; [reflexivity | apply list_elem_of_here].
    + exists "es". split; [reflexivity | by exists "", ""].
  - intros (s & [= <-] & Hocc%contains_spec). discriminate Hocc.
Defined.

(** C2.  A listing request whose [keyword] parameter, trimmed, is a non-empty
    keyword [k], and that has no identifier and no language, lists a channel
    iff [k] occurs, case ignored, in its name or in its description and its
    root content node has [available = true]. *)
Theorem keyword_listing (db : Database) (params : QueryDict) (k : string)
    (C : Channel) :
  Str.strip (QueryDict_get params "keyword" "") = k →
  k ≠ "" →
  Str.strip (QueryDict_get params "language" "") = "" →
  C ∈ _get_channel_list_v1 db params None ↔
    is_channel db C
    ∧ (Str.occurs_ci k (ChannelMetadata.name C.2)
       ∨ Str.occurs_ci k (ChannelMetadata.description C.2))
    ∧ ∃ r, root_node db C r ∧ ContentNode.available r = true.
Proof.
  intros Hk Hne HL.
  rewrite elem_of_get_channel_list_v1, channels_start_None,
    elem_of_ChannelMetadata_all, Hk, HL.
  unfold keyword_criterion, root_available. intuition congruence.
Qed.

Lemma keyword_listing_witness :
  Sample.chan_X ∈ _get_channel_list_v1 Sample.db Sample.keyword_math None ↔
    is_channel Sample.db Sample.chan_X
    ∧ (Str.occurs_ci "math" "Math Basics"
       ∨ Str.occurs_ci "math" "Arithmetic for beginners")
    ∧ ∃ r, root_node Sample.db Sample.chan_X r ∧ ContentNode.available r = true.
Proof.
  apply (keyword_listing Sample.db Sample.keyword_math "math" Sample.chan_X).
  - reflexivity.
  - discriminate.
  - reflexivity.
Defined.

(** C3.  A listing request with no keyword, no language and no identifier
    lists a channel iff its root content node has [available = true]. *)
Theorem unfiltered_listing (db : Database) (params : QueryDict) (C : Channel) :
  Str.strip (QueryDict_get params "keyword" "") = "" →
  Str.strip (QueryDict_get params "language" "") = "" →
  C ∈ _get_channel_list_v1 db params None ↔
    is_channel db C
    ∧ ∃ r, root_node db C r ∧ ContentNode.available r = true.
Proof.
  intros Hk HL.
  rewrite elem_of_get_channel_list_v1, channels_start_None,
    elem_of_ChannelMetadata_all, Hk, HL.
  unfold root_available. intuition.
Qed.

Lemma unfiltered_listing_witness :
  Sample.chan_Y ∈ _get_channel_list_v1 Sample.db Sample.no_params None ↔
    is_channel Sample.db Sample.chan_Y
    ∧ ∃ r, root_node Sample.db Sample.chan_Y r ∧ ContentNode.available r = true.
Proof.
  apply (unfiltered_listing Sample.db Sample.no_params Sample.chan_Y);
    reflexivity.
Defined.

(** C9.  No channel appears twice in the result of [_get_channel_list_v1]:
    the primary keys of the listed channels are pairwise distinct, whatever
    the parameters and the identifier. *)
Theorem listing_distinct (db : Database) (params : QueryDict)
    (identifier : option string) :
  NoDup (_get_channel_list_v1 db params identifier).*1.
Proof.
  apply NoDup_fmap_2_strong.
  - intros [k1 v1] [k2 v2] H1 H2 Hk. simpl in Hk. subst k2.
    apply elem_of_get_channel_list_v1 in H1 as [H1 _], H2 as [H2 _].
    apply channels_start_is_channel in H1, H2.
    unfold is_channel in H1, H2. simpl in H1, H2. congruence.
  - unfold _get_channel_list_v1. apply NoDup_remove_dups.
Qed.

(** ** File checksums *)

Section Checksums.
Context (db : Database).

Lemma filter_key_list_to_map {A} (l : list (string * A)) (k : string) :
  NoDup l.*1 →
  filter (λ c : string * A, c.1 = k) l
  = option_list (pair k <$> (list_to_map l : gmap string A) !! k).
Proof.
  induction l as [|[k' v'] l IH]; intros Hnd; [done|].
  apply NoDup_cons in Hnd as [Hk' Hnd]. simpl.
  destruct (decide (k' = k)) as [->|Hne].
  - rewrite filter_cons_True by done. rewrite lookup_insert_eq. simpl.
    rewrite (IH Hnd), (not_elem_of_list_to_map_1 _ _ Hk'). done.
  - rewrite filter_cons_False by done. rewrite lookup_insert_ne by done.
    by apply IH.
Qed.

Lemma filter_key_ChannelMetadata_all (k : string) :
  filter (λ c : Channel, c.1 = k) (ChannelMetadata_all db)
  = option_list (pair k <$> ChannelMetadata_objects db !! k).
Proof.
  unfold ChannelMetadata_all.
  etrans; [apply filter_key_list_to_map, NoDup_fst_map_to_list|].
  by rewrite list_to_map_to_list.
Qed.

Lemma ChannelMetadata_get_Some (channel_id : string) (ch : ChannelMetadata.t) :
  ChannelMetadata_objects db !! channel_id = Some ch →
  ChannelMetadata_get db channel_id = Return (channel_id, ch).
Proof.
  intros Hch. unfold ChannelMetadata_get.
  by rewrite filter_key_ChannelMetadata_all, Hch.
Qed.

Lemma ChannelMetadata_get_None (channel_id : string) :
  ChannelMetadata_objects db !! channel_id = None →
  ChannelMetadata_get db channel_id = Raise ChannelMetadata_DoesNotExist.
Proof.
  intros Hch. unfold ChannelMetadata_get.
  by rewrite filter_key_ChannelMetadata_all, Hch.
Qed.

Lemma elem_of_LocalFile_join (lid : string) (lf : LocalFile.t) (f : File.t)
    (n : ContentNode.t) :
  (lid, lf, f, n) ∈ LocalFile_join_files_contentnode db ↔
  LocalFile_objects db !! lid = Some lf
  ∧ ∃ fid nid, File_objects db !! fid = Some f
               ∧ File.local_file f = lid
               ∧ nid ∈ File.contentnode f
               ∧ ContentNode_objects db !! nid = Some n.
Proof.
  unfold LocalFile_join_files_contentnode. rewrite list_elem_of_bind. split.
  - intros ([lid' lf'] & Hrow & Hlf%elem_of_map_to_list).
    apply list_elem_of_bind in Hrow as (f' & Hrow & Hf).
    apply list_elem_of_fmap in Hf
      as ([fid f''] & -> & [Hloc Hf%elem_of_map_to_list]%list_elem_of_filter).
    apply list_elem_of_bind in Hrow as (nid & Hrow & Hnid).
    simpl in *. destruct (ContentNode_objects db !! nid) as [n'|] eqn:Hn.
    + apply list_elem_of_singleton in Hrow as [= -> -> -> ->].
      split; [done|]. by exists fid, nid.
    + by apply not_elem_of_nil in Hrow.
  - intros (Hlf & fid & nid & Hf & Hloc & Hnid & Hn).
    exists (lid, lf). split; [|by apply elem_of_map_to_list].
    apply list_elem_of_bind. exists f. split.
    + apply list_elem_of_bind. exists nid. split; [|done].
      rewrite Hn. by apply list_elem_of_singleton.
    + apply list_elem_of_fmap. exists (fid, f). split; [done|].
      apply list_elem_of_filter. split; [done | by apply elem_of_map_to_list].
Qed.

Lemma elem_of_checksums_query (t : Z) (x : string) :
  x ∈ checksums_query db t ↔
  ∃ lf, LocalFile_objects db !! x = Some lf
        ∧ LocalFile.available lf = true
        ∧ reachable_in_tree db t x.
Proof.
  unfold checksums_query, reachable_in_tree.
  rewrite elem_of_remove_dups, list_elem_of_fmap. split.
  - intros ([[[lid lf] f] n] & -> & [[Hav Ht] Hrow]%list_elem_of_filter).
    apply elem_of_LocalFile_join in Hrow
      as (Hlf & fid & nid & Hf & Hloc & Hnid & Hn).
    simpl in *. exists lf. do 2 (split; [done|]). by exists fid, f, nid, n.
  - intros (lf & Hlf & Hav & fid & f & nid & n & Hf & Hloc & Hnid & Hn & Ht).
    exists (x, lf, f, n). split; [done|].
    apply list_elem_of_filter. split; [done|].
    apply elem_of_LocalFile_join. split; [done|]. by exists fid, nid.
Qed.

Lemma NoDup_checksums_query (t : Z) : NoDup (checksums_query db t).
Proof. apply NoDup_remove_dups. Qed.

End Checksums.

(** C4.  For version ["v1"] and an existing channel (whose root node exists),
    the checksum view answers with the list of the identifiers of exactly the
    local files that have [available = true] and are referenced by a file one
    of whose content nodes has the tree-id of the channel's root; the list has
    no repetition, so a local file reached through several files of the tree
    appears exactly once. *)
Theorem file_checksums_v1 (NOT_FOUND : json) (db : Database)
    (channel_id : string) (ch : ChannelMetadata.t) (r : ContentNode.t) :
  ChannelMetadata_objects db !! channel_id = Some ch →
  ContentNode_objects db !! ChannelMetadata.root ch = Some r →
  ∃ checksums : list string,
    get_public_file_checksums NOT_FOUND db "v1" channel_id
    = Return (HttpResponse (JList (JStr <$> checksums)))
    ∧ NoDup checksums
    ∧ ∀ x, x ∈ checksums ↔
           ∃ lf, LocalFile_objects db !! x = Some lf
                 ∧ LocalFile.available lf = true
                 ∧ ∃ fid f nid n,
                     File_objects db !! fid = Some f
                     ∧ File.local_file f = x
                     ∧ nid ∈ File.contentnode f
                     ∧ ContentNode_objects db !! nid = Some n
                     ∧ ContentNode.tree_id n = ContentNode.tree_id r.
Proof.
  intros Hch Hr. exists (checksums_query db (ContentNode.tree_id r)).
  split; [|split].
  - unfold get_public_file_checksums. simpl.
    rewrite (ChannelMetadata_get_Some db _ _ Hch). simpl.
    unfold ChannelMetadata_root. simpl. by rewrite Hr.
  - apply NoDup_checksums_query.
  - intros x. apply elem_of_checksums_query.
Qed.

Lemma file_checksums_v1_witness :
  ∃ checksums : list string,
    get_public_file_checksums Sample.NOT_FOUND Sample.db "v1" Sample.id_T
    = Return (HttpResponse (JList (JStr <$> checksums)))
    ∧ NoDup checksums
    ∧ ∀ x, x ∈ checksums ↔
           ∃ lf, LocalFile_objects Sample.db !! x = Some lf
                 ∧ LocalFile.available lf = true
                 ∧ ∃ fid f nid n,
                     File_objects Sample.db !! fid = Some f
                     ∧ File.local_file f = x
                     ∧ nid ∈ File.contentnode f
                     ∧ ContentNode_objects Sample.db !! nid = Some n
                     ∧ ContentNode.tree_id n = 3%Z.
Proof.
  apply (file_checksums_v1 Sample.NOT_FOUND Sample.db Sample.id_T
           (ChannelMetadata.mk "Chimie" "Cours de chimie" "nt")
           (ContentNode.mk 3 (Some "fr") true)); reflexivity.
Defined.

(** ** The views: versions, empty results, identifiers *)

Section ViewFacts.
Context (NOT_FOUND : json) (PublicChannelSerializer : Channel → json).
Context (db : Database).

Lemma get_channel_list_v1_eq (params : QueryDict) (identifier : option string) :
  _get_channel_list db "v1" params identifier
  = Return (_get_channel_list_v1 db params identifier).
Proof. reflexivity. Qed.

Lemma get_channel_list_unsupported (version : string) (params : QueryDict)
    (identifier : option string) :
  version ≠ "v1" →
  _get_channel_list db version params identifier = Raise LookupError.
Proof. intros Hv. unfold _get_channel_list. by rewrite bool_decide_eq_false_2. Qed.

Lemma channels_start_key (k : string) :
  k ≠ "" →
  channels_start db (Some k)
  = option_list (pair k <$> ChannelMetadata_objects db !! k).
Proof.
  intros Hk. unfold channels_start.
  destruct k as [|c k]; [done|]. simpl.
  rewrite <- filter_key_ChannelMetadata_all.
  apply list_filter_iff. intros C. split; [by intros [= ->] | by intros ->].
Qed.

Lemma channels_start_empty : channels_start db (Some "") = ChannelMetadata_all db.
Proof. reflexivity. Qed.

Lemma get_channel_list_v1_empty_identifier (params : QueryDict) :
  _get_channel_list_v1 db params (Some "") = _get_channel_list_v1 db params None.
Proof. reflexivity. Qed.

Lemma normalize_identifier_hyphenated (h h' : string) :
  Str.all_chars Str.ishex h = true →
  Str.hyphenated h h' →
  normalize_identifier h' = h.
Proof.
  intros Hhex Hh'. unfold normalize_identifier.
  rewrite strip_nonspace.
  - apply replace_hyphenated; [done|].
    by apply (all_chars_impl Str.ishex _ _ ishex_nonhyphen).
  - apply (hyphenated_all_chars _ h); [done..|].
    by apply (all_chars_impl Str.ishex _ _ ishex_nonspace).
Qed.

(** The normalised identifier is empty exactly when the identifier, once
    trimmed, consists of hyphens only. *)
Lemma normalize_identifier_empty (identifier : string) :
  normalize_identifier identifier = ""
  ↔ Str.all_chars Str.ishyphen (Str.strip identifier) = true.
Proof. apply replace_hyphen_empty. Qed.

End ViewFacts.

(** C5.  For every version other than ["v1"], each of the three views answers
    with status 404 and the body [{"id": NOT_FOUND, "metadata": {"view": ""}}]. *)
Theorem unsupported_version_not_found (NOT_FOUND : json)
    (PublicChannelSerializer : Channel → json) (db : Database)
    (version : string) (params : QueryDict) (identifier channel_id : string) :
  version ≠ "v1" →
  let not_found :=
    Return (mkResponse 404
              (JDict [("id", NOT_FOUND); ("metadata", JDict [("view", JStr "")])])) in
  get_public_channel_list NOT_FOUND PublicChannelSerializer db version params
  = not_found
  ∧ get_public_channel_lookup NOT_FOUND PublicChannelSerializer db version params
      identifier
    = not_found
  ∧ get_public_file_checksums NOT_FOUND db version channel_id = not_found.
Proof.
  intros Hv. cbv zeta.
  unfold get_public_channel_list, get_public_channel_lookup,
    get_public_file_checksums.
  rewrite !get_channel_list_unsupported by done.
  by rewrite bool_decide_eq_false_2.
Qed.

Lemma unsupported_version_not_found_witness :
  let not_found :=
    Return (mkResponse 404
              (JDict [("id", Sample.NOT_FOUND);
                      ("metadata", JDict [("view", JStr "")])])) in
  get_public_channel_list Sample.NOT_FOUND Sample.serializer Sample.db "v2"
    Sample.keyword_math
  = not_found
  ∧ get_public_channel_lookup Sample.NOT_FOUND Sample.serializer Sample.db "v2"
      Sample.keyword_math Sample.id_X
    = not_found
  ∧ get_public_file_checksums Sample.NOT_FOUND Sample.db "v2" Sample.id_X
    = not_found.
Proof.
  apply (unsupported_version_not_found Sample.NOT_FOUND Sample.serializer
           Sample.db "v2" Sample.keyword_math Sample.id_X Sample.id_X).
  discriminate.
Defined.

(** C6.  With version ["v1"], when the filters of the lookup view leave no
    channel the view answers with the 404 not-found body, whether or not the
    identifier is the key of a channel; when the filters of the listing view
    leave no channel the view answers with status 200 and an empty array. *)
Theorem empty_lookup_not_found_empty_listing_ok (NOT_FOUND : json)
    (PublicChannelSerializer : Channel → json) (db : Database)
    (params : QueryDict) (identifier : string) :
  (_get_channel_list_v1 db params (Some (normalize_identifier identifier)) = [] →
   get_public_channel_lookup NOT_FOUND PublicChannelSerializer db "v1" params
     identifier
   = Return (HttpResponseNotFound (not_found_body NOT_FOUND)))
  ∧ (_get_channel_list_v1 db params None = [] →
     get_public_channel_list NOT_FOUND PublicChannelSerializer db "v1" params
     = Return (HttpResponse (JList []))).
Proof.
  split; intros Hempty.
  - unfold get_public_channel_lookup.
    by rewrite get_channel_list_v1_eq, Hempty.
  - unfold get_public_channel_list.
    by rewrite get_channel_list_v1_eq, Hempty.
Qed.

Lemma empty_lookup_not_found_empty_listing_ok_witness :
  is_channel Sample.db Sample.chan_Y
  ∧ get_public_channel_lookup Sample.NOT_FOUND Sample.serializer Sample.db "v1"
      Sample.no_params Sample.id_Y
    = Return (mkResponse 404 (not_found_body Sample.NOT_FOUND))
  ∧ get_public_channel_list Sample.NOT_FOUND Sample.serializer Sample.db "v1"
      Sample.keyword_science
    = Return (mkResponse 200 (JList [])).
Proof.
  split; [reflexivity|].
  split.
  - apply (proj1 (empty_lookup_not_found_empty_listing_ok Sample.NOT_FOUND
                    Sample.serializer Sample.db Sample.no_params Sample.id_Y)).
    vm_compute. reflexivity.
  - apply (proj2 (empty_lookup_not_found_empty_listing_ok Sample.NOT_FOUND
                    Sample.serializer Sample.db Sample.keyword_science Sample.id_Y)).
    vm_compute. reflexivity.
Defined.

(** C7.  With version ["v1"] and a [channel_id] that is the key of no
    channel, the checksum view answers with status 200 and an empty array;
    this differs from the 404 response with the not-found body that the same
    view gives for an unsupported version. *)
Theorem missing_channel_empty_checksums (NOT_FOUND : json) (db : Database)
    (channel_id : string) :
  ChannelMetadata_objects db !! channel_id = None →
  get_public_file_checksums NOT_FOUND db "v1" channel_id
  = Return (mkResponse 200 (JList []))
  ∧ ∀ version, version ≠ "v1" →
      get_public_file_checksums NOT_FOUND db version channel_id
      = Return (mkResponse 404 (not_found_body NOT_FOUND))
      ∧ get_public_file_checksums NOT_FOUND db version channel_id
        ≠ get_public_file_checksums NOT_FOUND db "v1" channel_id.
Proof.
  intros Hch.
  assert (get_public_file_checksums NOT_FOUND db "v1" channel_id
          = Return (mkResponse 200 (JList []))) as Hv1.
  { unfold get_public_file_checksums. simpl.
    by rewrite (ChannelMetadata_get_None db _ Hch). }
  split; [exact Hv1|]. intros version Hv.
  assert (get_public_file_checksums NOT_FOUND db version channel_id
          = Return (mkResponse 404 (not_found_body NOT_FOUND))) as Hvn.
  { unfold get_public_file_checksums. by rewrite bool_decide_eq_false_2. }
  split; [exact Hvn|]. rewrite Hv1, Hvn. discriminate.
Qed.

Lemma missing_channel_empty_checksums_witness :
  get_public_file_checksums Sample.NOT_FOUND Sample.db "v1" "dead"
  = Return (mkResponse 200 (JList [])).
Proof.
  apply (missing_channel_empty_checksums Sample.NOT_FOUND Sample.db "dead").
  reflexivity.
Defined.

(** C8, as the code has it.  The lookup view uses as key the identifier with
    surrounding whitespace trimmed and all hyphens removed.  When that key is
    not the empty string, the starting queryset is the channel whose primary
    key equals it, if there is one, and is empty otherwise.  A string of
    hexadecimal digits and the same string with hyphens inserted have the same
    key, so the lookup view answers both alike. *)
Theorem lookup_identifier_normalized (NOT_FOUND : json)
    (PublicChannelSerializer : Channel → json) (db : Database)
    (version : string) (params : QueryDict) (identifier : string) :
  Str.replace "-" "" (Str.strip identifier) ≠ "" →
  let key := Str.replace "-" "" (Str.strip identifier) in
  get_public_channel_lookup NOT_FOUND PublicChannelSerializer db version params
    identifier
  = match _get_channel_list db version params (Some key) with
    | Return [] | Raise LookupError =>
        Return (HttpResponseNotFound (not_found_body NOT_FOUND))
    | Return channel_list =>
        Return (HttpResponse (JList (PublicChannelSerializer <$> channel_list)))
    | Raise e => Raise e
    end
  ∧ channels_start db (Some key)
    = match ChannelMetadata_objects db !! key with
      | Some ch => [(key, ch)]
      | None => []
      end
  ∧ ∀ h, Str.all_chars Str.ishex h = true →
         Str.hyphenated h identifier →
         key = h
         ∧ Str.replace "-" "" (Str.strip h) = h
         ∧ get_public_channel_lookup NOT_FOUND PublicChannelSerializer db version
             params identifier
           = get_public_channel_lookup NOT_FOUND PublicChannelSerializer db version
               params h.
Proof.
  intros Hkey key. split; [|split].
  - unfold get_public_channel_lookup. fold key.
    change (normalize_identifier identifier) with key.
    destruct (_get_channel_list db version params (Some key)) as [[|C l]|[]]; done.
  - rewrite (channels_start_key db key Hkey).
    by destruct (ChannelMetadata_objects db !! key).
  - intros h Hhex Hh.
    pose proof (normalize_identifier_hyphenated h identifier Hhex Hh) as Hid.
    pose proof (normalize_identifier_hyphenated h h Hhex (hyphenated_refl h)) as Hh'.
    split; [exact Hid|]. split; [exact Hh'|].
    unfold get_public_channel_lookup. by rewrite Hid, Hh'.
Qed.

Lemma lookup_identifier_normalized_witness :
  get_public_channel_lookup Sample.NOT_FOUND Sample.serializer Sample.db "v1"
    Sample.no_params " 01234567-89ab-cdef-0123-456789abcdef "
  = Return (mkResponse 200 (JList [JStr Sample.id_X]))
  ∧ channels_start Sample.db (Some Sample.id_X) = [Sample.chan_X].
Proof.
  pose proof (lookup_identifier_normalized Sample.NOT_FOUND Sample.serializer
                Sample.db "v1" Sample.no_params
                " 01234567-89ab-cdef-0123-456789abcdef ") as H.
  destruct H as (Hview & Hstart & _); [discriminate|].
  split; [exact Hview | exact Hstart].
Defined.

(** C8, as stated, fails: for the identifier ["-"] the key is the empty
    string, the starting queryset is the whole channel table (three channels
    here) and the lookup view lists two channels, none of which has the key as
    its primary key. *)
Lemma lookup_identifier_counterexample :
  normalize_identifier "-" = ""
  ∧ channels_start Sample.db (Some (normalize_identifier "-"))
    = [Sample.chan_Y; Sample.chan_X; Sample.chan_T]
  ∧ Sample.chan_X.1 ≠ normalize_identifier "-"
  ∧ get_public_channel_lookup Sample.NOT_FOUND Sample.serializer Sample.db "v1"
      Sample.no_params "-"
    = Return (mkResponse 200 (JList [JStr Sample.id_X; JStr Sample.id_T])).
Proof.
  split; [reflexivity|]. split; [vm_compute; reflexivity|].
  split; [discriminate | vm_compute; reflexivity].
Qed.

(** C10, as the code has it.  When the identifier given to the lookup view,
    once trimmed, consists of hyphens only, it normalises to the empty string
    and the starting queryset is the whole channel table: the filtered
    channels are those of the listing view for the same parameters.  When at
    least one channel is left the lookup view answers exactly as the listing
    view does; when none is left it answers 404 with the not-found body,
    where the listing view answers 200 with an empty array. *)
Theorem lookup_empty_identifier_lists_all (NOT_FOUND : json)
    (PublicChannelSerializer : Channel → json) (db : Database)
    (params : QueryDict) (identifier : string) :
  Str.all_chars Str.ishyphen (Str.strip identifier) = true →
  Str.replace "-" "" (Str.strip identifier) = ""
  ∧ channels_start db (Some (normalize_identifier identifier))
    = ChannelMetadata_all db
  ∧ _get_channel_list_v1 db params (Some (normalize_identifier identifier))
    = _get_channel_list_v1 db params None
  ∧ (∀ C, C ∈ _get_channel_list_v1 db params (Some (normalize_identifier identifier))
          ↔ is_channel db C
            ∧ (Str.strip (QueryDict_get params "keyword" "") = ""
               ∨ keyword_criterion (Str.strip (QueryDict_get params "keyword" "")) C)
            ∧ (Str.strip (QueryDict_get params "language" "") = ""
               ∨ language_criterion db
                   (Str.strip (QueryDict_get params "language" "")) C)
            ∧ root_available db C)
  ∧ (_get_channel_list_v1 db params None ≠ [] →
     get_public_channel_lookup NOT_FOUND PublicChannelSerializer db "v1" params
       identifier
     = get_public_channel_list NOT_FOUND PublicChannelSerializer db "v1" params)
  ∧ (_get_channel_list_v1 db params None = [] →
     get_public_channel_lookup NOT_FOUND PublicChannelSerializer db "v1" params
       identifier
     = Return (mkResponse 404 (not_found_body NOT_FOUND))
     ∧ get_public_channel_list NOT_FOUND PublicChannelSerializer db "v1" params
       = Return (mkResponse 200 (JList []))).
Proof.
  intros Hkey%replace_hyphen_empty. split; [exact Hkey|].
  fold (normalize_identifier identifier) in Hkey. rewrite Hkey.
  split; [reflexivity|]. split; [reflexivity|]. split; [|split].
  - intros C.
    by rewrite elem_of_get_channel_list_v1, channels_start_empty,
         elem_of_ChannelMetadata_all.
  - intros Hne. unfold get_public_channel_lookup, get_public_channel_list.
    rewrite Hkey, !get_channel_list_v1_eq, get_channel_list_v1_empty_identifier.
    by destruct (_get_channel_list_v1 db params None).
  - intros Hempty. unfold get_public_channel_lookup, get_public_channel_list.
    rewrite Hkey, !get_channel_list_v1_eq, get_channel_list_v1_empty_identifier.
    by rewrite Hempty.
Qed.

Lemma lookup_empty_identifier_lists_all_witness :
  get_public_channel_lookup Sample.NOT_FOUND Sample.serializer Sample.db "v1"
    Sample.no_params " -- "
  = get_public_channel_list Sample.NOT_FOUND Sample.serializer Sample.db "v1"
      Sample.no_params.
Proof.
  refine (proj1 (proj2 (proj2 (proj2 (proj2
            (lookup_empty_identifier_lists_all Sample.NOT_FOUND Sample.serializer
               Sample.db Sample.no_params " -- " _))))) _).
  - reflexivity.
  - vm_compute. discriminate.
Defined.

(** C10, as stated, fails in two ways.  The identifier ["-"] normalises to the
    empty string, yet with a keyword that no channel matches the lookup view
    answers 404 where the listing view answers 200 with an empty array: it is
    not a listing then.  The identifier ["- -"] consists only of whitespace
    and hyphens, yet it normalises to one space, the starting queryset is
    empty and the lookup view answers 404 although the listing view lists two
    channels. *)
Lemma lookup_empty_identifier_counterexample :
  (normalize_identifier "-" = ""
   ∧ get_public_channel_list Sample.NOT_FOUND Sample.serializer Sample.db "v1"
       Sample.keyword_science
     = Return (mkResponse 200 (JList []))
   ∧ get_public_channel_lookup Sample.NOT_FOUND Sample.serializer Sample.db "v1"
       Sample.keyword_science "-"
     = Return (mkResponse 404 (not_found_body Sample.NOT_FOUND)))
  ∧ (Str.all_chars (λ c, Str.isspace c || Str.ishyphen c) "- -" = true
     ∧ normalize_identifier "- -" = " "
     ∧ channels_start Sample.db (Some (normalize_identifier "- -")) = []
     ∧ get_public_channel_list Sample.NOT_FOUND Sample.serializer Sample.db "v1"
         Sample.no_params
       = Return (mkResponse 200 (JList [JStr Sample.id_X; JStr Sample.id_T]))
     ∧ get_public_channel_lookup Sample.NOT_FOUND Sample.serializer Sample.db "v1"
         Sample.no_params "- -"
       = Return (mkResponse 404 (not_found_body Sample.NOT_FOUND))).
Proof.
  split.
  - split; [reflexivity|]. split; vm_compute; reflexivity.
  - split; [reflexivity|]. split; [reflexivity|].
    split; [vm_compute; reflexivity|]. split; vm_compute; reflexivity.
Qed.

(** ** The scenarios of the specification, on the sample store *)

Section Scenarios.
Import Sample.

(** Keyword ["math"] lists the channel named "Math Basics". *)
Example scenario_keyword_math :
  get_public_channel_list NOT_FOUND serializer db "v1" Sample.keyword_math
  = Return (mkResponse 200 (JList [JStr Sample.id_X])).
Proof. vm_compute. reflexivity. Qed.

(** Keyword ["science"] lists nothing and is not an error. *)
Example scenario_keyword_science :
  get_public_channel_list NOT_FOUND serializer db "v1" Sample.keyword_science
  = Return (mkResponse 200 (JList [])).
Proof. vm_compute. reflexivity. Qed.

(** A channel whose root is unavailable is not found by its identifier. *)
Example scenario_unavailable_root :
  get_public_channel_lookup NOT_FOUND serializer db "v1" Sample.no_params Sample.id_Y
  = Return (mkResponse 404 (not_found_body NOT_FOUND)).
Proof. vm_compute. reflexivity. Qed.

(** Language ["es"] lists the French channel one of whose files is Spanish. *)
Example scenario_file_language :
  get_public_channel_list NOT_FOUND serializer db "v1" Sample.language_es
  = Return (mkResponse 200 (JList [JStr Sample.id_T])).
Proof. vm_compute. reflexivity. Qed.

(** Language ["FR"] reaches [chan_T] both by its root tag and by its tree;
    it is listed once ([chan_Y] also matches but is unavailable). *)
Example scenario_two_paths :
  get_public_channel_list NOT_FOUND serializer db "v1" {[ "language" := [" FR "] ]}
  = Return (mkResponse 200 (JList [JStr Sample.id_T])).
Proof. vm_compute. reflexivity. Qed.

(** The two files of [chan_T] that share a local file give one checksum; the
    unavailable local file is left out. *)
Example scenario_checksums :
  get_public_file_checksums NOT_FOUND db "v1" Sample.id_T
  = Return (mkResponse 200 (JList [JStr "lf1"])).
Proof. vm_compute. reflexivity. Qed.

(** Only surrounding whitespace is trimmed: ["- -"] normalises to one space,
    which is the key of no channel. *)
Example scenario_inner_whitespace :
  normalize_identifier "- -" = " "
  ∧ get_public_channel_lookup NOT_FOUND serializer db "v1" Sample.no_params "- -"
    = Return (mkResponse 404 (not_found_body NOT_FOUND)).
Proof. split; vm_compute; reflexivity. Qed.

End Scenarios.

(** * Further properties of the views *)

(** ** Text: substrings and case folding *)

Section OccursFacts.
Import Str.

Lemma append_cons c (a b : string) : String c a +:+ b = String c (a +:+ b).
Proof. reflexivity. Qed.

Lemma append_assoc (a b c : string) : (a +:+ b) +:+ c = a +:+ (b +:+ c).
Proof.
  induction a as [|x a IH]; [done|].
  by rewrite !append_cons, IH.
Qed.

Lemma append_empty_inv (a b : string) : a +:+ b = "" → a = "" ∧ b = "".
Proof. destruct a; [done | discriminate]. Qed.

Lemma lower_append (a b : string) : lower (a +:+ b) = lower a +:+ lower b.
Proof.
  induction a as [|x a IH]; [done|].
  rewrite append_cons. simpl. by rewrite IH.
Qed.

Lemma lower_empty (s : string) : lower s = "" ↔ s = "".
Proof. destruct s; [done | split; discriminate]. Qed.

Lemma occurs_trans (a b c : string) : occurs a b → occurs b c → occurs a c.
Proof.
  intros (p1 & q1 & ->) (p2 & q2 & ->).
  exists (p2 +:+ p1), (q1 +:+ q2). by rewrite !append_assoc.
Qed.

Lemma occurs_empty_inv (a : string) : occurs a "" → a = "".
Proof.
  intros (p & q & Hpq). symmetry in Hpq.
  apply append_empty_inv in Hpq as [_ Hpq].
  by apply append_empty_inv in Hpq as [-> _].
Qed.

Lemma occurs_ci_trans (a b c : string) :
  occurs_ci a b → occurs_ci b c → occurs_ci a c.
Proof. apply occurs_trans. Qed.

Lemma occurs_ci_empty_inv (a : string) : occurs_ci a "" → a = "".
Proof. intros Ha%occurs_empty_inv. by apply lower_empty. Qed.

Lemma icontains_lower (col p1 p2 : string) :
  lower p1 = lower p2 → icontains col p1 = icontains col p2.
Proof. intros Hp. unfold icontains. by rewrite Hp. Qed.

Lemma icontains_null_lower (col : option string) (p1 p2 : string) :
  lower p1 = lower p2 → icontains_null col p1 = icontains_null col p2.
Proof. intros Hp. destruct col; [by apply icontains_lower | done]. Qed.

Lemma lower_eq_empty (p1 p2 : string) :
  lower p1 = lower p2 → (p1 = "" ↔ p2 = "").
Proof. intros Hp. by rewrite <- (lower_empty p1), <- (lower_empty p2), Hp. Qed.

Lemma replace_hyphen_nonhyphen (s : string) :
  all_chars nonhyphen (replace "-" "" s) = true.
Proof.
  induction s as [|c s IH]; simpl; [done|].
  destruct (Ascii.eqb c "-") eqn:Hc; [exact IH|]. simpl.
  unfold nonhyphen at 1, ishyphen. by rewrite Hc.
Qed.

End OccursFacts.

(** ** The filters up to case, padding and substrings *)

Section FilterFacts.
Context (db : Database).

Lemma lang_matches_weaken (tag : option string) (L1 L2 : string) :
  Str.occurs_ci L1 L2 → lang_matches tag L2 → lang_matches tag L1.
Proof.
  intros HL (s & -> & Hs). exists s. split; [done|].
  by apply (occurs_ci_trans _ L2).
Qed.

Lemma keyword_criterion_weaken (k1 k2 : string) (C : Channel) :
  Str.occurs_ci k1 k2 → keyword_criterion k2 C → keyword_criterion k1 C.
Proof.
  intros Hk [H|H]; [left|right]; by apply (occurs_ci_trans _ k2).
Qed.

Lemma language_criterion_weaken (L1 L2 : string) (C : Channel) :
  Str.occurs_ci L1 L2 → language_criterion db L2 C → language_criterion db L1 C.
Proof.
  intros HL (r & Hr & Hcrit). exists r. split; [done|].
  destruct Hcrit as [Hown|(nid & n & Hn & Ht & Hm)].
  - left. by apply (lang_matches_weaken _ _ L2).
  - right. exists nid, n. do 2 (split; [done|]).
    destruct Hm as [Hown|(f & Hf & Hlang)].
    + left. by apply (lang_matches_weaken _ _ L2).
    + right. exists f. split; [done|]. by apply (lang_matches_weaken _ _ L2).
Qed.

Lemma keyword_filter_lower (k1 k2 : string) (channels : list Channel) :
  Str.lower k1 = Str.lower k2 →
  keyword_filter k1 channels = keyword_filter k2 channels.
Proof.
  intros Hk. unfold keyword_filter. apply list_filter_iff. intros C.
  by rewrite !(icontains_lower _ k1 k2 Hk).
Qed.

Lemma matching_tree_ids_lower (L1 L2 : string) :
  Str.lower L1 = Str.lower L2 →
  matching_tree_ids db L1 = matching_tree_ids db L2.
Proof.
  intros HL. unfold matching_tree_ids. f_equal.
  apply list_filter_iff. intros row.
  by rewrite !(icontains_null_lower _ L1 L2 HL).
Qed.

Lemma language_filter_lower (L1 L2 : string) (channels : list Channel) :
  Str.lower L1 = Str.lower L2 →
  language_filter db L1 channels = language_filter db L2 channels.
Proof.
  intros HL. unfold language_filter.
  rewrite (matching_tree_ids_lower L1 L2 HL).
  apply list_filter_iff. intros C. unfold root__.
  destruct (ContentNode_objects db !! _) as [r|]; [|done].
  by rewrite (icontains_null_lower _ L1 L2 HL).
Qed.

End FilterFacts.

(** ** The channel list: how the criteria combine *)

Section ListFacts.
Context (db : Database).

Lemma elem_of_channels_start (identifier : option string) (C : Channel) :
  C ∈ channels_start db identifier ↔
  is_channel db C ∧ (truthy identifier = true → identifier = Some C.1).
Proof.
  unfold channels_start. destruct (truthy identifier).
  - rewrite list_elem_of_filter, elem_of_ChannelMetadata_all. split.
    + intros [Hid HC]. split; [done|]. intros _. by symmetry.
    + intros [HC Hid]. split; [|done]. symmetry. by apply Hid.
  - rewrite elem_of_ChannelMetadata_all. split.
    + intros HC. split; [done | discriminate].
    + by intros [HC _].
Qed.

Lemma NoDup_fst_get_channel_list_v1 (params : QueryDict)
    (identifier : option string) :
  NoDup (_get_channel_list_v1 db params identifier).*1.
Proof.
  apply NoDup_fmap_2_strong; [|apply NoDup_remove_dups].
  intros [k1 v1] [k2 v2] H1 H2 Hk. simpl in Hk. subst k2.
  apply elem_of_get_channel_list_v1 in H1 as [H1 _], H2 as [H2 _].
  apply channels_start_is_channel in H1, H2.
  unfold is_channel in H1, H2. simpl in H1, H2. congruence.
Qed.

Lemma length_le_1_same_key {A} (l : list (string * A)) (k : string) :
  NoDup l.*1 → (∀ C, C ∈ l → C.1 = k) → length l ≤ 1.
Proof.
  intros Hnd Hk. destruct l as [|C1 [|C2 l]]; simpl; [lia..|].
  exfalso. apply NoDup_cons in Hnd as [Hnot _]. apply Hnot.
  rewrite (Hk C1), <- (Hk C2) by (rewrite !elem_of_cons; auto).
  simpl. apply list_elem_of_here.
Qed.

Lemma elem_of_lookup_list (params : QueryDict) (k : string) (C : Channel) :
  k ≠ "" →
  C ∈ _get_channel_list_v1 db params (Some k) ↔
  C.1 = k ∧ C ∈ _get_channel_list_v1 db params None.
Proof.
  intros Hk. rewrite !elem_of_get_channel_list_v1, !elem_of_channels_start.
  destruct k as [|c k]; [done|]. simpl. split.
  - intros ([HC Hid] & Hkw & Hlang & Hroot).
    assert (Some (String c k) = Some C.1) as [= ->] by by apply Hid.
    split; [done|]. split; [split; [done | discriminate] | done].
  - intros (Hid & [HC _] & Hkw & Hlang & Hroot).
    split; [|done]. split; [done|]. intros _. by rewrite Hid.
Qed.

Lemma length_lookup_list (params : QueryDict) (k : string) :
  k ≠ "" → length (_get_channel_list_v1 db params (Some k)) ≤ 1.
Proof.
  intros Hk. apply (length_le_1_same_key _ k).
  - apply NoDup_fst_get_channel_list_v1.
  - intros C HC. by apply elem_of_lookup_list in HC as [HC _].
Qed.

(** The lookup list is the listed channel of that key, or nothing. *)
Lemma lookup_list_cases (params : QueryDict) (k : string) :
  k ≠ "" →
  (∃ ch, ChannelMetadata_objects db !! k = Some ch
         ∧ (k, ch) ∈ _get_channel_list_v1 db params None
         ∧ _get_channel_list_v1 db params (Some k) = [(k, ch)])
  ∨ ((∀ ch, (k, ch) ∉ _get_channel_list_v1 db params None)
     ∧ _get_channel_list_v1 db params (Some k) = []).
Proof.
  intros Hk. pose proof (length_lookup_list params k Hk) as Hlen.
  destruct (_get_channel_list_v1 db params (Some k)) as [|[k' ch] l] eqn:Hl.
  - right. split; [|done]. intros ch Hin.
    assert ((k, ch) ∈ _get_channel_list_v1 db params (Some k)) as Hin'
      by by apply elem_of_lookup_list.
    rewrite Hl in Hin'. by apply not_elem_of_nil in Hin'.
  - left. destruct l; [|simpl in Hlen; lia].
    assert ((k', ch) ∈ _get_channel_list_v1 db params (Some k)) as Hin
      by (rewrite Hl; apply list_elem_of_here).
    apply elem_of_lookup_list in Hin as [Hk' Hin]; [|done].
    simpl in Hk'. subst k'. exists ch. split; [|done].
    apply elem_of_get_channel_list_v1 in Hin as [Hin _].
    by apply channels_start_is_channel in Hin.
Qed.

End ListFacts.

(** X1.  The criteria of a channel request combine conjunctively.  A channel
    is returned by [_get_channel_list_v1] iff it is a row of the channel
    table, has the identifier as key when a non-empty identifier is given,
    meets the keyword criterion when the trimmed keyword is non-empty, meets
    the language criterion when the trimmed language tag is non-empty, and has
    an available root node. *)
Theorem channel_list_criteria (db : Database) (params : QueryDict)
    (identifier : option string) (C : Channel) :
  C ∈ _get_channel_list_v1 db params identifier ↔
    is_channel db C
    ∧ (∀ k, identifier = Some k → k ≠ "" → C.1 = k)
    ∧ (Str.strip (QueryDict_get params "keyword" "") ≠ "" →
       keyword_criterion (Str.strip (QueryDict_get params "keyword" "")) C)
    ∧ (Str.strip (QueryDict_get params "language" "") ≠ "" →
       language_criterion db (Str.strip (QueryDict_get params "language" "")) C)
    ∧ root_available db C.
Proof.
  rewrite elem_of_get_channel_list_v1, elem_of_channels_start.
  set (k := Str.strip (QueryDict_get params "keyword" "")).
  set (L := Str.strip (QueryDict_get params "language" "")).
  assert ((truthy identifier = true → identifier = Some C.1)
          ↔ ∀ k, identifier = Some k → k ≠ "" → C.1 = k) as ->.
  { destruct identifier as [[|c i]|]; simpl; split.
    - intros _ k' [= <-] Hne. done.
    - intros _ [=].
    - intros H k' [= <-] _. specialize (H eq_refl). by injection H.
    - intros H _. f_equal. symmetry. by apply H.
    - intros _ k' [=].
    - intros _ [=]. }
  destruct (decide (k = "")), (decide (L = "")); tauto.
Qed.

(** X2.  Filters only narrow: whatever the parameters and the identifier,
    every channel returned is also returned by the request with no parameter
    and no identifier. *)
Theorem channel_list_within_unfiltered (db : Database) (params : QueryDict)
    (identifier : option string) (C : Channel) :
  C ∈ _get_channel_list_v1 db params identifier →
  C ∈ _get_channel_list_v1 db ∅ None.
Proof.
  rewrite !elem_of_get_channel_list_v1, !elem_of_channels_start.
  intros ([HC _] & _ & _ & Hroot).
  split; [split; [done | discriminate]|].
  split; [by left|]. split; [by left | done].
Qed.

Lemma channel_list_within_unfiltered_witness :
  Sample.chan_T ∈ _get_channel_list_v1 Sample.db ∅ None.
Proof.
  apply (channel_list_within_unfiltered Sample.db Sample.language_es
           (Some Sample.id_T) Sample.chan_T).
  apply (bool_decide_unpack _). vm_compute. exact I.
Defined.

(** X3.  The channel list depends on the keyword and on the language tag only
    up to surrounding whitespace and the case of ASCII letters: two requests
    whose trimmed keywords, and whose trimmed tags, are equal after case
    folding return the same list. *)
Theorem channel_list_case_and_padding (db : Database) (p1 p2 : QueryDict)
    (identifier : option string) :
  Str.lower (Str.strip (QueryDict_get p1 "keyword" ""))
  = Str.lower (Str.strip (QueryDict_get p2 "keyword" "")) →
  Str.lower (Str.strip (QueryDict_get p1 "language" ""))
  = Str.lower (Str.strip (QueryDict_get p2 "language" "")) →
  _get_channel_list_v1 db p1 identifier = _get_channel_list_v1 db p2 identifier.
Proof.
  intros Hk HL. unfold _get_channel_list_v1.
  set (k1 := Str.strip (QueryDict_get p1 "keyword" "")) in *.
  set (k2 := Str.strip (QueryDict_get p2 "keyword" "")) in *.
  set (L1 := Str.strip (QueryDict_get p1 "language" "")) in *.
  set (L2 := Str.strip (QueryDict_get p2 "language" "")) in *.
  pose proof (lower_eq_empty k1 k2 Hk) as Hk0.
  pose proof (lower_eq_empty L1 L2 HL) as HL0.
  rewrite (bool_decide_ext (k1 ≠ "") (k2 ≠ "")) by tauto.
  rewrite (bool_decide_ext (L1 ≠ "") (L2 ≠ "")) by tauto.
  destruct (bool_decide (L2 ≠ "")), (bool_decide (k2 ≠ ""));
    rewrite ?(language_filter_lower db L1 L2 _ HL),
      ?(keyword_filter_lower k1 k2 _ Hk); reflexivity.
Qed.

Lemma channel_list_case_and_padding_witness :
  _get_channel_list_v1 Sample.db {[ "keyword" := ["  MATH basics "] ]} None
  = _get_channel_list_v1 Sample.db {[ "keyword" := ["Math Basics"] ]} None.
Proof.
  apply (channel_list_case_and_padding Sample.db
           {[ "keyword" := ["  MATH basics "] ]}
           {[ "keyword" := ["Math Basics"] ]} None); reflexivity.
Defined.

(** X4.  A shorter term lists more.  If the trimmed keyword of one request
    occurs (case ignored) in the trimmed keyword of another, and likewise for
    the language tags, then every channel returned for the second request is
    returned for the first, the identifier being the same. *)
Theorem channel_list_substring_monotone (db : Database) (p1 p2 : QueryDict)
    (identifier : option string) (C : Channel) :
  Str.occurs_ci (Str.strip (QueryDict_get p1 "keyword" ""))
                (Str.strip (QueryDict_get p2 "keyword" "")) →
  Str.occurs_ci (Str.strip (QueryDict_get p1 "language" ""))
                (Str.strip (QueryDict_get p2 "language" "")) →
  C ∈ _get_channel_list_v1 db p2 identifier →
  C ∈ _get_channel_list_v1 db p1 identifier.
Proof.
  rewrite !elem_of_get_channel_list_v1.
  set (k1 := Str.strip (QueryDict_get p1 "keyword" "")).
  set (k2 := Str.strip (QueryDict_get p2 "keyword" "")).
  set (L1 := Str.strip (QueryDict_get p1 "language" "")).
  set (L2 := Str.strip (QueryDict_get p2 "language" "")).
  intros Hk HL (Hstart & Hkw & Hlang & Hroot).
  split; [done|]. split; [|split; [|done]].
  - destruct Hkw as [->|Hkw].
    + left. by apply occurs_ci_empty_inv.
    + right. by apply (keyword_criterion_weaken k1 k2).
  - destruct Hlang as [->|Hlang].
    + left. by apply occurs_ci_empty_inv.
    + right. by apply (language_criterion_weaken db L1 L2).
Qed.

Lemma channel_list_substring_monotone_witness :
  Sample.chan_X ∈ _get_channel_list_v1 Sample.db {[ "keyword" := ["mat"] ]} None.
Proof.
  apply (channel_list_substring_monotone Sample.db
           {[ "keyword" := ["mat"] ]} {[ "keyword" := ["Math"] ]} None
           Sample.chan_X).
  - by exists "", "h".
  - by exists "", "".
  - apply (bool_decide_unpack _). vm_compute. exact I.
Defined.

(** X5.  With a non-empty key, the channels of a lookup are the channels of
    the listing for the same parameters that have this key, and there is at
    most one. *)
Theorem lookup_list_is_listing_at_key (db : Database) (params : QueryDict)
    (k : string) :
  k ≠ "" →
  (∀ C, C ∈ _get_channel_list_v1 db params (Some k) ↔
        C.1 = k ∧ C ∈ _get_channel_list_v1 db params None)
  ∧ length (_get_channel_list_v1 db params (Some k)) ≤ 1.
Proof.
  intros Hk. split.
  - intros C. by apply elem_of_lookup_list.
  - by apply length_lookup_list.
Qed.

Lemma lookup_list_is_listing_at_key_witness :
  (∀ C, C ∈ _get_channel_list_v1 Sample.db Sample.keyword_math (Some Sample.id_X) ↔
        C.1 = Sample.id_X
        ∧ C ∈ _get_channel_list_v1 Sample.db Sample.keyword_math None)
  ∧ length (_get_channel_list_v1 Sample.db Sample.keyword_math (Some Sample.id_X))
    ≤ 1.
Proof.
  apply (lookup_list_is_listing_at_key Sample.db Sample.keyword_math Sample.id_X).
  discriminate.
Defined.

(** X6.  The answer of the lookup view for version ["v1"] and an identifier
    whose key is not empty: when the listing for the same parameters contains
    a channel with this key, status 200 and the array of that one serialised
    channel; when it contains none, status 404 and the not-found body. *)
Theorem lookup_view_answer (NOT_FOUND : json)
    (PublicChannelSerializer : Channel → json) (db : Database)
    (params : QueryDict) (identifier : string) :
  normalize_identifier identifier ≠ "" →
  (∀ ch, (normalize_identifier identifier, ch) ∈ _get_channel_list_v1 db params None →
         get_public_channel_lookup NOT_FOUND PublicChannelSerializer db "v1"
           params identifier
         = Return (mkResponse 200
                     (JList [PublicChannelSerializer
                               (normalize_identifier identifier, ch)])))
  ∧ ((∀ ch, (normalize_identifier identifier, ch)
            ∉ _get_channel_list_v1 db params None) →
     get_public_channel_lookup NOT_FOUND PublicChannelSerializer db "v1" params
       identifier
     = Return (mkResponse 404 (not_found_body NOT_FOUND))).
Proof.
  intros Hk. unfold get_public_channel_lookup.
  rewrite get_channel_list_v1_eq.
  destruct (lookup_list_cases db params _ Hk)
    as [(ch & Hch & Hin & ->)|[Hnone ->]].
  - split; [|intros Hnot; by destruct (Hnot ch)].
    intros ch' Hin'. apply elem_of_get_channel_list_v1 in Hin' as [Hin' _].
    apply channels_start_is_channel in Hin'. unfold is_channel in Hin'.
    simpl in Hin'. by replace ch' with ch by congruence.
  - split; [|done]. intros ch Hin. by destruct (Hnone ch).
Qed.

Lemma lookup_view_answer_witness :
  get_public_channel_lookup Sample.NOT_FOUND Sample.serializer Sample.db "v1"
    Sample.language_es "000000-000000-000000-000000-0000-00a2"
  = Return (mkResponse 200 (JList [Sample.serializer Sample.chan_T])).
Proof.
  refine (proj1 (lookup_view_answer Sample.NOT_FOUND Sample.serializer Sample.db
                   Sample.language_es "000000-000000-000000-000000-0000-00a2" _)
            (ChannelMetadata.mk "Chimie" "Cours de chimie" "nt") _).
  - discriminate.
  - apply (bool_decide_unpack _). vm_compute. exact I.
Defined.

(** X9.  Whenever the checksum view returns a response, its status is 200 for
    version ["v1"] and 404 for every other version: under ["v1"] an unknown
    channel is never reported as not found. *)
Theorem checksums_view_status (NOT_FOUND : json) (db : Database)
    (version channel_id : string) (resp : Response) :
  get_public_file_checksums NOT_FOUND db version channel_id = Return resp →
  (status_code resp = 200%Z ↔ version = "v1")
  ∧ (status_code resp = 404%Z ↔ version ≠ "v1").
Proof.
  unfold get_public_file_checksums. case_bool_decide as Hv.
  - destruct (ChannelMetadata_get db channel_id ≫= _) as [cs|[]];
      intros [= <-]; simpl; (split; split; done).
  - intros [= <-]. simpl. split; split; done.
Qed.

Lemma checksums_view_status_witness :
  (status_code (mkResponse 200 (JList [])) = 200%Z ↔ "v1" = "v1")
  ∧ (status_code (mkResponse 200 (JList [])) = 404%Z ↔ "v1" ≠ "v1").
Proof.
  apply (checksums_view_status Sample.NOT_FOUND Sample.db "v1" "dead"
           (mkResponse 200 (JList []))).
  reflexivity.
Defined.

(** X10.  The handler of the checksum view catches the [DoesNotExist] of the
    channel only: for version ["v1"] and an existing channel whose [root] key
    names no content node, the view raises the [DoesNotExist] of the content
    node instead of answering with an empty array. *)
Theorem checksums_view_raises (NOT_FOUND : json) (db : Database)
    (channel_id : string) (ch : ChannelMetadata.t) :
  ChannelMetadata_objects db !! channel_id = Some ch →
  ContentNode_objects db !! ChannelMetadata.root ch = None →
  get_public_file_checksums NOT_FOUND db "v1" channel_id
  = Raise ContentNode_DoesNotExist.
Proof.
  intros Hch Hr. unfold get_public_file_checksums. simpl.
  rewrite (ChannelMetadata_get_Some db _ _ Hch). simpl.
  unfold ChannelMetadata_root. simpl. by rewrite Hr.
Qed.

Lemma checksums_view_raises_witness :
  get_public_file_checksums Sample.NOT_FOUND Sample.db_orphan "v1" Sample.id_X
  = Raise ContentNode_DoesNotExist.
Proof.
  apply (checksums_view_raises Sample.NOT_FOUND Sample.db_orphan Sample.id_X
           (ChannelMetadata.mk "Math Basics" "Arithmetic for beginners" "nx"));
    reflexivity.
Defined.

(** X11.  The tree-ids collected for a language tag are exactly the tree-ids
    of the content nodes whose own tag contains it or that have an associated
    file whose tag contains it (case ignored).  A node without any file
    counts through its own tag, and no availability flag is consulted. *)
Theorem matching_tree_ids_members (db : Database) (language_id : string) (t : Z) :
  t ∈ matching_tree_ids db language_id ↔
  ∃ nid n,
    ContentNode_objects db !! nid = Some n
    ∧ ContentNode.tree_id n = t
    ∧ (lang_matches (ContentNode.lang n) language_id
       ∨ ∃ fid f, File_objects db !! fid = Some f
                  ∧ nid ∈ File.contentnode f
                  ∧ lang_matches (File.lang f) language_id).
Proof.
  rewrite elem_of_matching_tree_ids.
  unfold language_tree, node_matches, node_has_file. split.
  - intros (nid & n & Hn & Ht & [Hown|(f & (fid & Hf & Hin) & Hlang)]);
      exists nid, n; (do 2 (split; [done|])); [by left|].
    right. by exists fid, f.
  - intros (nid & n & Hn & Ht & [Hown|(fid & f & Hf & Hin & Hlang)]);
      exists nid, n; (do 2 (split; [done|])); [by left|].
    right. exists f. split; [by exists fid | done].
Qed.

(** X12.  The key the lookup view uses never contains a hyphen; so, when it
    is not empty, every channel the lookup returns has a primary key without
    hyphens. *)
Theorem lookup_key_without_hyphen (db : Database) (params : QueryDict)
    (identifier : string) :
  Str.all_chars Str.nonhyphen (normalize_identifier identifier) = true
  ∧ (normalize_identifier identifier ≠ "" →
     ∀ C, C ∈ _get_channel_list_v1 db params
                (Some (normalize_identifier identifier)) →
          Str.all_chars Str.nonhyphen C.1 = true).
Proof.
  assert (Str.all_chars Str.nonhyphen (normalize_identifier identifier) = true)
    as Hkey by apply replace_hyphen_nonhyphen.
  split; [exact Hkey|]. intros Hne C HC.
  apply elem_of_lookup_list in HC as [-> _]; done.
Qed.

Lemma lookup_key_without_hyphen_witness :
  Str.all_chars Str.nonhyphen Sample.chan_X.1 = true.
Proof.
  refine (proj2 (lookup_key_without_hyphen Sample.db Sample.no_params
                   "01234567-89ab-cdef-0123-456789abcdef") _ Sample.chan_X _).
  - discriminate.
  - apply (bool_decide_unpack _). vm_compute. exact I.
Defined.

(** X13.  A channel whose root node is unavailable is hidden by the channel
    views and still served by the checksum view: no request lists it, a lookup
    by its (non-empty) key answers 404, and the checksum view answers 200 with
    the checksums of the root's tree. *)
Theorem unavailable_root_hidden_but_served (NOT_FOUND : json)
    (PublicChannelSerializer : Channel → json) (db : Database)
    (k : string) (ch : ChannelMetadata.t) (r : ContentNode.t) :
  ChannelMetadata_objects db !! k = Some ch →
  ContentNode_objects db !! ChannelMetadata.root ch = Some r →
  ContentNode.available r = false →
  (∀ params identifier, (k, ch) ∉ _get_channel_list_v1 db params identifier)
  ∧ (k ≠ "" →
     ∀ params identifier,
       normalize_identifier identifier = k →
       get_public_channel_lookup NOT_FOUND PublicChannelSerializer db "v1"
         params identifier
       = Return (mkResponse 404 (not_found_body NOT_FOUND)))
  ∧ get_public_file_checksums NOT_FOUND db "v1" k
    = Return (mkResponse 200
                (JList (JStr <$> checksums_query db (ContentNode.tree_id r)))).
Proof.
  intros Hch Hr Hav.
  assert (∀ params identifier,
            (k, ch) ∉ _get_channel_list_v1 db params identifier) as Hhidden.
  { intros params identifier Hin.
    apply elem_of_get_channel_list_v1 in Hin as (_ & _ & _ & r' & Hr' & Hav').
    unfold root_node in Hr'. simpl in Hr'. congruence. }
  split; [exact Hhidden|]. split.
  - intros Hk params identifier Hid.
    unfold get_public_channel_lookup. rewrite get_channel_list_v1_eq, Hid.
    destruct (lookup_list_cases db params k Hk)
      as [(ch' & Hch' & Hin & _)|[_ ->]]; [|done].
    replace ch' with ch in Hin by congruence. by destruct (Hhidden params None).
  - unfold get_public_file_checksums. simpl.
    rewrite (ChannelMetadata_get_Some db _ _ Hch). simpl.
    unfold ChannelMetadata_root. simpl. by rewrite Hr.
Qed.

Lemma unavailable_root_hidden_but_served_witness :
  (∀ params identifier,
     Sample.chan_Y ∉ _get_channel_list_v1 Sample.db params identifier)
  ∧ get_public_file_checksums Sample.NOT_FOUND Sample.db "v1" Sample.id_Y
    = Return (mkResponse 200 (JList (JStr <$> checksums_query Sample.db 2))).
Proof.
  pose proof (unavailable_root_hidden_but_served Sample.NOT_FOUND
                Sample.serializer Sample.db Sample.id_Y
                (ChannelMetadata.mk "Physique" "Cours de physique" "ny")
                (ContentNode.mk 2 (Some "fr") false)) as H.
  destruct H as (Hhidden & _ & Hserved); [reflexivity..|].
  split; [exact Hhidden | exact Hserved].
Defined.
